(** * The Jenkins-on-Fargate stack of [lib/app-stack.ts]

    [AppStack]'s constructor is a straight-line sequence of resource
    declarations against the provisioning library.  The embedding keeps that
    shape: the stack under construction is an explicit state (its id, its
    private [appName] field and the constructs registered so far, in
    declaration order), every library call of the source is one operation on
    that state, and an object reference of the source is the position of the
    construct in the stack.  The library itself is not part of the
    repository: an operation records the call with the arguments the source
    passes, and nothing more. *)

From stdpp Require Import base strings list gmap relations.

Open Scope string_scope.

(** ** Values of the provisioning library *)

(** An object reference: the position of the construct in the stack. *)
Abbreviation handle := nat (only parsing).

Module Duration.
Inductive t := seconds (amount : N) | minutes (amount : N).

Definition toSeconds (d : t) : N :=
  match d with
  | seconds n => n
  | minutes n => (n * 60)%N
  end.
End Duration.

Inductive RemovalPolicy := DESTROY | RETAIN | SNAPSHOT.

Global Instance RemovalPolicy_eq_dec : EqDecision RemovalPolicy.
Proof. solve_decision. Defined.

(** Deploy-time attributes of a construct, read in the source as
    [fs.fileSystemId] and [accessPoint.accessPointId]. *)
Inductive Token :=
| fileSystemId (fs : handle)
| accessPointId (ap : handle).

Definition Token_target (t : Token) : handle :=
  match t with
  | fileSystemId h => h
  | accessPointId h => h
  end.

Module ec2.
Inductive Port := tcp (port : N).
End ec2.

Module efs.
Record FileSystemProps := {
  vpc : handle;
  fileSystemName : string;
  removalPolicy : RemovalPolicy;
}.

Record PosixUser := { uid : string; gid : string }.

Record Acl := { ownerGid : string; ownerUid : string; permissions : string }.

Record AccessPointOptions := {
  path : string;
  posixUser : PosixUser;
  createAcl : Acl;
}.
End efs.

Module ecs.
Record ClusterProps := { clusterName : string }.

Record FargateTaskDefinitionProps := {
  family : string;
  cpu : N;
  memoryLimitMiB : N;
}.

Record AuthorizationConfig := { accessPointId : Token; iam : string }.

Record EfsVolumeConfiguration := {
  fileSystemId : Token;
  transitEncryption : string;
  authorizationConfig : AuthorizationConfig;
}.

Record Volume := {
  name : string;
  efsVolumeConfiguration : EfsVolumeConfiguration;
}.

Inductive ContainerImage := fromRegistry (image_name : string).

Inductive LogDriver := awsLogs (streamPrefix : string).

Record PortMapping := { containerPort : N }.

Record ContainerDefinitionOptions := {
  image : ContainerImage;
  logging : LogDriver;
  portMappings : list PortMapping;
}.

Record MountPoint := {
  containerPath : string;
  sourceVolume : string;
  readOnly : bool;
}.

Record FargateServiceProps := {
  serviceName : string;
  cluster : handle;
  taskDefinition : handle;
  desiredCount : N;
  maxHealthyPercent : N;
  minHealthyPercent : N;
  healthCheckGracePeriod : Duration.t;
}.
End ecs.

Module elbv2.
Record ApplicationLoadBalancerProps := {
  loadBalancerName : string;
  vpc : handle;
  internetFacing : bool;
}.

Record BaseApplicationListenerProps := { port : N }.

Record HealthCheck := { path : string }.

Record AddApplicationTargetsProps := {
  tg_port : N;
  targets : list handle;
  deregistrationDelay : Duration.t;
  healthCheck : HealthCheck;
}.
End elbv2.

(** ** Constructs *)

(** What a construct is and what it was declared with.  A construct made by
    a method of another construct ([fs.addAccessPoint],
    [taskDef.addContainer], [lb.addListener], [lbListener.addTargets]) keeps
    the receiver; the parts a later call adds to a construct
    ([taskDef.addVolume], [cd.addMountPoints],
    [fService.connections.allowTo]) are lists that start empty. *)
Inductive Resource :=
| Cluster (props : ecs.ClusterProps)
| Vpc (owner : handle)
| FileSystem (props : efs.FileSystemProps)
| AccessPoint (fileSystem : handle) (options : efs.AccessPointOptions)
| FargateTaskDefinition (props : ecs.FargateTaskDefinitionProps)
    (volumes : list ecs.Volume)
| ContainerDefinition (taskDefinition : handle)
    (options : ecs.ContainerDefinitionOptions)
    (mountPoints : list ecs.MountPoint)
| FargateService (props : ecs.FargateServiceProps)
    (connections : list (handle * ec2.Port))
| ApplicationLoadBalancer (props : elbv2.ApplicationLoadBalancerProps)
| ApplicationListener (loadBalancer : handle)
    (props : elbv2.BaseApplicationListenerProps)
| ApplicationTargetGroup (listener : handle)
    (props : elbv2.AddApplicationTargetsProps).

(** [cid] is the identifier the source passes; the network a cluster makes
    for itself gets none from the source. *)
Record Construct := {
  cid : option string;
  resource : Resource;
  tags : gmap string string;
}.

Inductive Kind :=
| KCluster | KVpc | KFileSystem | KAccessPoint | KTaskDefinition | KContainer
| KService | KLoadBalancer | KListener | KTargetGroup.

Global Instance Kind_eq_dec : EqDecision Kind.
Proof. solve_decision. Defined.

Definition kind_of (r : Resource) : Kind :=
  match r with
  | Cluster _ => KCluster
  | Vpc _ => KVpc
  | FileSystem _ => KFileSystem
  | AccessPoint _ _ => KAccessPoint
  | FargateTaskDefinition _ _ => KTaskDefinition
  | ContainerDefinition _ _ _ => KContainer
  | FargateService _ _ => KService
  | ApplicationLoadBalancer _ => KLoadBalancer
  | ApplicationListener _ _ => KListener
  | ApplicationTargetGroup _ _ => KTargetGroup
  end.

Definition kind (c : Construct) : Kind := kind_of (resource c).

(** ** The stack under construction *)

Module cdk.
(** [env] of [StackProps]: both fields may be [undefined]. *)
Record Environment := { account : option string; region : option string }.
End cdk.

Record AppProps := {
  appName : string;
  account : string;
  env : cdk.Environment;
}.

Record AppStack := {
  stack_id : string;
  this_appName : string;
  children : list Construct;
}.

Definition M (A : Type) : Type := AppStack → A * AppStack.

Global Instance M_ret : MRet M := λ A a this, (a, this).
Global Instance M_bind : MBind M := λ A B f m this,
  let '(a, this') := m this in f a this'.

Definition exec {A} (m : M A) (this : AppStack) : AppStack := (m this).2.

Definition set_children (this : AppStack) (l : list Construct) : AppStack :=
  {| stack_id := stack_id this; this_appName := this_appName this;
     children := l |}.

Definition set_appName (this : AppStack) (n : string) : AppStack :=
  {| stack_id := stack_id this; this_appName := n;
     children := children this |}.

(** [this.appName] *)
Definition get_appName : M string := λ this, (this_appName this, this).

(** Registering a construct returns the reference to it. *)
Definition addChild (c : Construct) : M handle := λ this,
  (length (children this), set_children this (children this ++ [c])).

(** A method that changes a construct in place. *)
Definition update (h : handle) (f : Resource → Resource) : M unit := λ this,
  (tt, set_children this
         (alter (λ c, {| cid := cid c; resource := f (resource c);
                         tags := tags c |}) h (children this))).

(** ** The library calls of the source *)

(** [Tags.of(scope).add(key, value)] *)
Definition Tags_of_add (scope : handle) (key value : string) : M unit :=
  λ this,
  (tt, set_children this
         (alter (λ c, {| cid := cid c; resource := resource c;
                         tags := <[key := value]> (tags c) |})
            scope (children this))).

(** The object [new ecs.Cluster] returns: the cluster and, as [cluster.vpc],
    the network it makes for itself when the props name none. *)
Record ClusterRef := { cluster_ref : handle; vpc : handle }.

(** [new ecs.Cluster(this, id, props)] *)
Definition new_Cluster (id : string) (props : ecs.ClusterProps)
  : M ClusterRef :=
  c ← addChild {| cid := Some id; resource := Cluster props; tags := ∅ |};
  v ← addChild {| cid := None; resource := Vpc c; tags := ∅ |};
  mret {| cluster_ref := c; vpc := v |}.

(** [new efs.FileSystem(this, id, props)] *)
Definition new_FileSystem (id : string) (props : efs.FileSystemProps)
  : M handle :=
  addChild {| cid := Some id; resource := FileSystem props; tags := ∅ |}.

(** [fs.addAccessPoint(id, options)] *)
Definition addAccessPoint (fs : handle) (id : string)
    (options : efs.AccessPointOptions) : M handle :=
  addChild {| cid := Some id; resource := AccessPoint fs options; tags := ∅ |}.

(** [new ecs.FargateTaskDefinition(this, id, props)] *)
Definition new_FargateTaskDefinition (id : string)
    (props : ecs.FargateTaskDefinitionProps) : M handle :=
  addChild {| cid := Some id; resource := FargateTaskDefinition props [];
              tags := ∅ |}.

(** [taskDef.addVolume(volume)] *)
Definition addVolume (taskDef : handle) (volume : ecs.Volume) : M unit :=
  update taskDef (λ r,
    match r with
    | FargateTaskDefinition props volumes =>
        FargateTaskDefinition props (volumes ++ [volume])
    | _ => r
    end).

(** [taskDef.addContainer(id, options)] *)
Definition addContainer (taskDef : handle) (id : string)
    (options : ecs.ContainerDefinitionOptions) : M handle :=
  addChild {| cid := Some id; resource := ContainerDefinition taskDef options [];
              tags := ∅ |}.

(** [cd.addMountPoints(mountPoint)] *)
Definition addMountPoints (cd : handle) (mountPoint : ecs.MountPoint)
  : M unit :=
  update cd (λ r,
    match r with
    | ContainerDefinition taskDef options mountPoints =>
        ContainerDefinition taskDef options (mountPoints ++ [mountPoint])
    | _ => r
    end).

(** [new ecs.FargateService(this, id, props)] *)
Definition new_FargateService (id : string) (props : ecs.FargateServiceProps)
  : M handle :=
  addChild {| cid := Some id; resource := FargateService props []; tags := ∅ |}.

(** [service.connections.allowTo(other, port)] *)
Definition connections_allowTo (service other : handle) (port : ec2.Port)
  : M unit :=
  update service (λ r,
    match r with
    | FargateService props connections =>
        FargateService props (connections ++ [(other, port)])
    | _ => r
    end).

(** [new elbv2.ApplicationLoadBalancer(this, id, props)] *)
Definition new_ApplicationLoadBalancer (id : string)
    (props : elbv2.ApplicationLoadBalancerProps) : M handle :=
  addChild {| cid := Some id; resource := ApplicationLoadBalancer props;
              tags := ∅ |}.

(** [lb.addListener(id, props)] *)
Definition addListener (lb : handle) (id : string)
    (props : elbv2.BaseApplicationListenerProps) : M handle :=
  addChild {| cid := Some id; resource := ApplicationListener lb props;
              tags := ∅ |}.

(** [lbListener.addTargets(id, props)] *)
Definition addTargets (lbListener : handle) (id : string)
    (props : elbv2.AddApplicationTargetsProps) : M handle :=
  addChild {| cid := Some id; resource := ApplicationTargetGroup lbListener props;
              tags := ∅ |}.

(** ** JavaScript values *)

(** [x || ''] for [x : string | undefined]: the empty string is falsy. *)
Definition js_or (x : option string) (d : string) : string :=
  match x with
  | None => d
  | Some "" => d
  | Some s => s
  end.

(** [x + s] for [x : string | undefined]. *)
Definition js_add (x : option string) (s : string) : string :=
  match x with
  | None => "undefined" +:+ s
  | Some x => x +:+ s
  end.

(** ** [AppStack] *)

(** [private addAppTag(resource: IResource)] *)
Definition addAppTag (resource : handle) : M unit :=
  n ← get_appName;
  Tags_of_add resource "AppName" n.

(** [super(scope, id, props)]: a stack with that id and no construct yet. *)
Definition super (id : string) (props : option AppProps) : AppStack :=
  {| stack_id := id; this_appName := ""; children := [] |}.

(** The declarations of the constructor, after [this.appName] is set. *)
Definition declarations : M unit :=
  let jenkinsHomeDir := "jenkins-home" in

  n ← get_appName;
  let assetName := n +:+ "-cluster" in
  cluster ← new_Cluster assetName {| ecs.clusterName := n |};
  addAppTag (cluster_ref cluster);;

  let vpc := vpc cluster in
  addAppTag vpc;;

  n ← get_appName;
  let assetName := n +:+ "-efs" in
  fs ← new_FileSystem assetName
         {| efs.vpc := vpc;
            efs.fileSystemName := n;
            efs.removalPolicy := DESTROY |};
  addAppTag fs;;

  n ← get_appName;
  let assetName := n +:+ "-ap" in
  accessPoint ← addAccessPoint fs assetName
         {| efs.path := "/" +:+ jenkinsHomeDir;
            efs.posixUser := {| efs.uid := "1000"; efs.gid := "1000" |};
            efs.createAcl := {| efs.ownerGid := "1000";
                                efs.ownerUid := "1000";
                                efs.permissions := "755" |} |};
  addAppTag accessPoint;;

  n ← get_appName;
  let assetName := n +:+ "-task" in
  taskDef ← new_FargateTaskDefinition assetName
         {| ecs.family := n; ecs.cpu := 1024; ecs.memoryLimitMiB := 2048 |};
  addAppTag taskDef;;

  addVolume taskDef
    {| ecs.name := jenkinsHomeDir;
       ecs.efsVolumeConfiguration :=
         {| ecs.fileSystemId := fileSystemId fs;
            ecs.transitEncryption := "ENABLED";
            ecs.authorizationConfig :=
              {| ecs.accessPointId := accessPointId accessPoint;
                 ecs.iam := "ENABLED" |} |} |};;

  n ← get_appName;
  cd ← addContainer taskDef n
         {| ecs.image := ecs.fromRegistry "jenkins/jenkins:lts";
            ecs.logging := ecs.awsLogs "jenkins";
            ecs.portMappings := [ {| ecs.containerPort := 8080 |} ] |};

  addMountPoints cd
    {| ecs.containerPath := "/var/jenkins_home";
       ecs.sourceVolume := jenkinsHomeDir;
       ecs.readOnly := false |};;

  n ← get_appName;
  let assetName := n +:+ "-service" in
  fService ← new_FargateService assetName
         {| ecs.serviceName := n;
            ecs.cluster := cluster_ref cluster;
            ecs.taskDefinition := taskDef;
            ecs.desiredCount := 1;
            ecs.maxHealthyPercent := 100;
            ecs.minHealthyPercent := 0;
            ecs.healthCheckGracePeriod := Duration.minutes 5 |};
  connections_allowTo fService fs (ec2.tcp 2049);;
  addAppTag fService;;

  n ← get_appName;
  let assetName := n +:+ "-elb" in
  lb ← new_ApplicationLoadBalancer assetName
         {| elbv2.loadBalancerName := n;
            elbv2.vpc := vpc;
            elbv2.internetFacing := true |};
  addAppTag lb;;

  n ← get_appName;
  let assetName := n +:+ "-listener" in
  lbListener ← addListener lb assetName {| elbv2.port := 80 |};
  addAppTag lbListener;;

  n ← get_appName;
  let assetName := n +:+ "-target" in
  lbTarget ← addTargets lbListener assetName
         {| elbv2.tg_port := 8080;
            elbv2.targets := [fService];
            elbv2.deregistrationDelay := Duration.seconds 10;
            elbv2.healthCheck := {| elbv2.path := "/login" |} |};
  mret tt.

(** [constructor(scope: Construct, id: string, props?: AppProps)] *)
Definition constructor (id : string) (props : option AppProps) : AppStack :=
  let this := super id props in
  let this := set_appName this (js_or (appName <$> props) "") in
  exec declarations this.

(** ** The entry point *)

(** The arguments of [new AppStack(app, process.env.APP_NAME + '-app-stack',
    {...})], with [process_env] the environment as it is after
    [dotenv.config()]. *)
Definition stack_args (process_env : gmap string string)
  : string * AppProps :=
  (js_add (process_env !! "APP_NAME") "-app-stack",
   {| appName := js_or (process_env !! "APP_NAME") "";
      account := js_or (process_env !! "DEV_ACCOUNT") "";
      env := {| cdk.account := process_env !! "DEV_ACCOUNT";
                cdk.region := process_env !! "DEV_REGION" |} |}).

Definition main (process_env : gmap string string) : AppStack :=
  constructor (stack_args process_env).1 (Some (stack_args process_env).2).

(** [this.appName = props?.appName || ''] *)
Definition applicationName (props : option AppProps) : string :=
  js_or (appName <$> props) "".

(** ** Reading the assembled stack *)

(** The constructs of one kind, in declaration order. *)
Definition constructs_of (k : Kind) (this : AppStack) : list Construct :=
  filter (λ c, kind c = k) (children this).

(** The constructs of one kind with their references. *)
Definition handles_of (k : Kind) (this : AppStack) : list handle :=
  (filter (λ hc, kind hc.2 = k) (imap (λ h c, (h, c)) (children this))).*1.

(** The value of the tag [key] on each construct of kind [k]. *)
Definition tag_values (key : string) (k : Kind) (this : AppStack)
  : list (option string) :=
  (λ c, tags c !! key) <$> constructs_of k this.

Definition fileSystems (this : AppStack) : list efs.FileSystemProps :=
  omap (λ c, match resource c with FileSystem p => Some p | _ => None end)
    (children this).

(** The file systems the provisioning engine keeps when the stack is torn
    down: those declared with a removal policy other than [DESTROY]. *)
Definition residual_file_systems (this : AppStack)
  : list efs.FileSystemProps :=
  filter (λ p, efs.removalPolicy p ≠ DESTROY) (fileSystems this).

(** ** The dependency graph *)

(** The constructs a construct refers to. *)
Definition deps (r : Resource) : list handle :=
  match r with
  | Cluster _ => []
  | Vpc owner => [owner]
  | FileSystem props => [efs.vpc props]
  | AccessPoint fs _ => [fs]
  | FargateTaskDefinition _ volumes =>
      volumes ≫= λ v,
        let cfg := ecs.efsVolumeConfiguration v in
        [Token_target (ecs.fileSystemId cfg);
         Token_target (ecs.accessPointId (ecs.authorizationConfig cfg))]
  | ContainerDefinition taskDef _ _ => [taskDef]
  | FargateService props connections =>
      [ecs.cluster props; ecs.taskDefinition props] ++ connections.*1
  | ApplicationLoadBalancer props => [elbv2.vpc props]
  | ApplicationListener lb _ => [lb]
  | ApplicationTargetGroup lbListener props =>
      lbListener :: elbv2.targets props
  end.

Definition deps_at (this : AppStack) (a : handle) : list handle :=
  from_option (λ c, deps (resource c)) [] (children this !! a).

(** [a] refers to [b]. *)
Definition depends_on (this : AppStack) (a b : handle) : Prop :=
  b ∈ deps_at this a.

(** All edges, consumer first, in declaration order of the consumer. *)
Definition edges (this : AppStack) : list (handle * handle) :=
  mjoin (imap (λ a c, (λ b, (a, b)) <$> deps (resource c)) (children this)).

Definition kind_at (this : AppStack) (h : handle) : option Kind :=
  kind <$> children this !! h.

(** The edges by kind: [(k1, k2)] when a construct of kind [k1] refers to
    one of kind [k2]. *)
Definition kind_edges (this : AppStack) : list (Kind * Kind) :=
  omap (λ e, k1 ← kind_at this e.1; k2 ← kind_at this e.2; Some (k1, k2))
    (edges this).

Definition resource_at (this : AppStack) (h : handle) : option Resource :=
  resource <$> children this !! h.

(** [a] depends on [b], directly or through other constructs. *)
Definition reaches (this : AppStack) : relation handle :=
  tc (depends_on this).

(** Some construct of kind [consumer] depends on one of kind [producer]. *)
Definition kind_reaches (this : AppStack) (consumer producer : Kind) : Prop :=
  ∃ a b, kind_at this a = Some consumer ∧ kind_at this b = Some producer
         ∧ reaches this a b.

(** The arrows of the data model, producer first: the chain from the cluster
    to the target group, then the service on the cluster (the task
    definition is in the chain) and the target group on the service (the
    listener is in the chain). *)
Definition section3_arrows : list (Kind * Kind) :=
  [ (KCluster, KFileSystem); (KFileSystem, KAccessPoint);
    (KAccessPoint, KTaskDefinition); (KTaskDefinition, KService);
    (KService, KLoadBalancer); (KLoadBalancer, KListener);
    (KListener, KTargetGroup);
    (KCluster, KService); (KService, KTargetGroup) ].

(** The stack the entry point builds when [APP_NAME] is [n] and nothing else
    is set. *)
Definition assemble (n : string) : AppStack := main {[ "APP_NAME" := n ]}.

(** ** Vocabulary of the properties *)

(** The order in which the constructor declares its constructs. *)
Definition declaration_order : list Kind :=
  [ KCluster; KVpc; KFileSystem; KAccessPoint; KTaskDefinition; KContainer;
    KService; KLoadBalancer; KListener; KTargetGroup ].

(** The eight resources of the data model.  The container is declared
    inside the task definition and the network inside the cluster. *)
Definition resource_kinds : list Kind :=
  [ KCluster; KFileSystem; KAccessPoint; KTaskDefinition; KService;
    KLoadBalancer; KListener; KTargetGroup ].

Definition resources (this : AppStack) : list Construct :=
  filter (λ c, kind c ∈ resource_kinds) (children this).

(** The role suffixes of the naming convention, by resource. *)
Definition role_suffix : list (Kind * string) :=
  [ (KCluster, "-cluster"); (KFileSystem, "-efs"); (KAccessPoint, "-ap");
    (KTaskDefinition, "-task"); (KService, "-service");
    (KLoadBalancer, "-elb"); (KListener, "-listener");
    (KTargetGroup, "-target") ].

(** What the overview lists as created and tagged. *)
Definition listed_as_tagged : list Kind :=
  [ KCluster; KFileSystem; KAccessPoint; KTaskDefinition; KContainer;
    KService; KLoadBalancer; KListener; KTargetGroup ].

(** The resources [addAppTag] is called on. *)
Definition tagged_resources : list Kind :=
  [ KCluster; KFileSystem; KAccessPoint; KTaskDefinition; KService;
    KLoadBalancer; KListener ].

(** The stack the constructor returns, written out: what running the
    declarations one after the other leaves in [children].  The proofs below
    rewrite with [constructor_result] and read the answer off this list. *)
Definition assembled (n : string) : list Construct :=
  [ {| cid := Some (n +:+ "-cluster");
       resource := Cluster {| ecs.clusterName := n |};
       tags := {[ "AppName" := n ]} |};
    {| cid := None; resource := Vpc 0; tags := {[ "AppName" := n ]} |};
    {| cid := Some (n +:+ "-efs");
       resource := FileSystem {| efs.vpc := 1; efs.fileSystemName := n;
                                 efs.removalPolicy := DESTROY |};
       tags := {[ "AppName" := n ]} |};
    {| cid := Some (n +:+ "-ap");
       resource := AccessPoint 2
         {| efs.path := "/jenkins-home";
            efs.posixUser := {| efs.uid := "1000"; efs.gid := "1000" |};
            efs.createAcl := {| efs.ownerGid := "1000";
                                efs.ownerUid := "1000";
                                efs.permissions := "755" |} |};
       tags := {[ "AppName" := n ]} |};
    {| cid := Some (n +:+ "-task");
       resource := FargateTaskDefinition
         {| ecs.family := n; ecs.cpu := 1024; ecs.memoryLimitMiB := 2048 |}
         [ {| ecs.name := "jenkins-home";
              ecs.efsVolumeConfiguration :=
                {| ecs.fileSystemId := fileSystemId 2;
                   ecs.transitEncryption := "ENABLED";
                   ecs.authorizationConfig :=
                     {| ecs.accessPointId := accessPointId 3;
                        ecs.iam := "ENABLED" |} |} |} ];
       tags := {[ "AppName" := n ]} |};
    {| cid := Some n;
       resource := ContainerDefinition 4
         {| ecs.image := ecs.fromRegistry "jenkins/jenkins:lts";
            ecs.logging := ecs.awsLogs "jenkins";
            ecs.portMappings := [ {| ecs.containerPort := 8080 |} ] |}
         [ {| ecs.containerPath := "/var/jenkins_home";
              ecs.sourceVolume := "jenkins-home";
              ecs.readOnly := false |} ];
       tags := ∅ |};
    {| cid := Some (n +:+ "-service");
       resource := FargateService
         {| ecs.serviceName := n; ecs.cluster := 0; ecs.taskDefinition := 4;
            ecs.desiredCount := 1; ecs.maxHealthyPercent := 100;
            ecs.minHealthyPercent := 0;
            ecs.healthCheckGracePeriod := Duration.minutes 5 |}
         [ (2, ec2.tcp 2049) ];
       tags := {[ "AppName" := n ]} |};
    {| cid := Some (n +:+ "-elb");
       resource := ApplicationLoadBalancer
         {| elbv2.loadBalancerName := n; elbv2.vpc := 1;
            elbv2.internetFacing := true |};
       tags := {[ "AppName" := n ]} |};
    {| cid := Some (n +:+ "-listener");
       resource := ApplicationListener 7 {| elbv2.port := 80 |};
       tags := {[ "AppName" := n ]} |};
    {| cid := Some (n +:+ "-target");
       resource := ApplicationTargetGroup 8
         {| elbv2.tg_port := 8080; elbv2.targets := [6];
            elbv2.deregistrationDelay := Duration.seconds 10;
            elbv2.healthCheck := {| elbv2.path := "/login" |} |};
       tags := ∅ |} ].

(** The identifiers the source passes, in declaration order. *)
Definition identifiers (this : AppStack) : list string :=
  omap cid (children this).

(** The suffix after the application name in each identifier, in declaration
    order; the container is declared under the application name itself. *)
Definition identifier_suffixes : list string :=
  [ "-cluster"; "-efs"; "-ap"; "-task"; ""; "-service"; "-elb"; "-listener";
    "-target" ].

(** The constructs [addAppTag] is never called on. *)
Definition untagged_kinds : list Kind := [ KContainer; KTargetGroup ].

(** * Properties *)

(** ** The monad and the constructor *)

Lemma js_or_Some (s : string) : js_or (Some s) "" = s.
Proof. by destruct s. Qed.

Lemma applicationName_Some (p : AppProps) :
  applicationName (Some p) = appName p.
Proof. apply js_or_Some. Qed.

Lemma applicationName_None : applicationName None = "".
Proof. reflexivity. Qed.

Lemma constructor_unfold (id : string) (props : option AppProps) :
  constructor id props =
  exec declarations
    {| stack_id := id; this_appName := applicationName props;
       children := [] |}.
Proof. reflexivity. Qed.

Lemma declarations_result (id n : string) :
  exec declarations {| stack_id := id; this_appName := n; children := [] |}
  = {| stack_id := id; this_appName := n; children := assembled n |}.
Proof. reflexivity. Qed.

Lemma constructor_result (id : string) (props : option AppProps) :
  constructor id props =
  {| stack_id := id; this_appName := applicationName props;
     children := assembled (applicationName props) |}.
Proof. apply declarations_result. Qed.

(** The private field is written once, before the first declaration. *)
Lemma constructor_appName (id : string) (props : option AppProps) :
  this_appName (constructor id props) = applicationName props.
Proof. reflexivity. Qed.

Lemma constructor_stack_id (id : string) (props : option AppProps) :
  stack_id (constructor id props) = id.
Proof. reflexivity. Qed.

(** ** The operations on the stack *)

(** A new construct gets the next free reference and leaves the constructs
    declared before it as they are. *)
Lemma addChild_handle (c : Construct) (this : AppStack) :
  (addChild c this).1 = length (children this).
Proof. reflexivity. Qed.

Lemma addChild_lookup_new (c : Construct) (this : AppStack) :
  children (exec (addChild c) this) !! length (children this) = Some c.
Proof. simpl. by rewrite list_lookup_middle. Qed.

Lemma addChild_lookup_old (c : Construct) (this : AppStack) (h : handle) :
  h < length (children this) →
  children (exec (addChild c) this) !! h = children this !! h.
Proof. intros H. simpl. by rewrite lookup_app_l. Qed.

(** A method that changes a construct in place changes neither its
    identifier nor any tag, and no other construct. *)
Lemma update_tags (h h' : handle) (f : Resource → Resource)
    (this : AppStack) :
  tags <$> children (exec (update h f) this) !! h'
  = tags <$> children this !! h'.
Proof.
  simpl. destruct (decide (h = h')) as [->|Hne].
  - rewrite list_lookup_alter_eq. by destruct (children this !! h').
  - by rewrite list_lookup_alter_ne.
Qed.

Lemma update_other (h h' : handle) (f : Resource → Resource)
    (this : AppStack) :
  h ≠ h' → children (exec (update h f) this) !! h' = children this !! h'.
Proof. intros Hne. simpl. by rewrite list_lookup_alter_ne. Qed.

(** [Tags.of(scope).add] sets the tag on the construct it is given and
    touches no other construct. *)
Lemma Tags_of_add_carries (scope : handle) (key value : string)
    (this : AppStack) :
  scope < length (children this) →
  ∃ c, children (exec (Tags_of_add scope key value) this) !! scope = Some c
       ∧ tags c !! key = Some value.
Proof.
  intros [c Hc]%lookup_lt_is_Some. simpl.
  rewrite list_lookup_alter_eq, Hc. eexists. split; [done|].
  apply lookup_insert_eq.
Qed.

Lemma Tags_of_add_other (scope h : handle) (key value : string)
    (this : AppStack) :
  scope ≠ h →
  children (exec (Tags_of_add scope key value) this) !! h
  = children this !! h.
Proof. intros Hne. simpl. by rewrite list_lookup_alter_ne. Qed.

(** [addAppTag] tags with the stack's application name. *)
Lemma addAppTag_carries (resource : handle) (this : AppStack) :
  resource < length (children this) →
  ∃ c, children (exec (addAppTag resource) this) !! resource = Some c
       ∧ tags c !! "AppName" = Some (this_appName this).
Proof. apply Tags_of_add_carries. Qed.

(** ** The dependency graph of any stack *)

Lemma depends_on_edges (this : AppStack) (a b : handle) :
  depends_on this a b ↔ (a, b) ∈ edges this.
Proof.
  unfold depends_on, deps_at, edges. rewrite list_elem_of_join. split.
  - destruct (children this !! a) as [c|] eqn:Hc; simpl.
    + intros Hb. exists ((λ b, (a, b)) <$> deps (resource c)). split.
      * apply list_elem_of_fmap. by exists b.
      * apply elem_of_lookup_imap. by exists a, c.
    + intros Hb. by apply elem_of_nil in Hb.
  - intros (l & Hab & Hl).
    apply elem_of_lookup_imap in Hl as (i & c & -> & Hc).
    apply list_elem_of_fmap in Hab as (b' & [= -> ->] & Hb).
    by rewrite Hc.
Qed.

Section acyclic.
Variable this : AppStack.
Hypothesis backwards : Forall (λ e, e.2 < e.1) (edges this).

Lemma depends_on_lt (a b : handle) : depends_on this a b → b < a.
Proof.
  intros H%depends_on_edges.
  by apply (proj1 (Forall_forall _ _) backwards (a, b)).
Qed.

Lemma reaches_lt (a b : handle) : reaches this a b → b < a.
Proof.
  induction 1 as [a b H|a b c H _ IH].
  - by apply depends_on_lt.
  - apply depends_on_lt in H. lia.
Qed.

Lemma reaches_irrefl (a : handle) : ¬ reaches this a a.
Proof. intros H%reaches_lt. lia. Qed.
End acyclic.

Lemma reaches_closed (this : AppStack) (S : list handle) :
  Forall (λ e, e.1 ∈ S → e.2 ∈ S) (edges this) →
  ∀ a b, reaches this a b → a ∈ S → b ∈ S.
Proof.
  intros Hcl.
  assert (Hstep : ∀ a b, depends_on this a b → a ∈ S → b ∈ S).
  { intros a b H%depends_on_edges.
    apply (proj1 (Forall_forall _ _) Hcl (a, b) H). }
  induction 1 as [a b H|a b c H _ IH]; eauto.
Qed.

Lemma kind_at_handles_of (this : AppStack) (k : Kind) (h : handle) :
  kind_at this h = Some k ↔ h ∈ handles_of k this.
Proof.
  unfold kind_at, handles_of. rewrite list_elem_of_fmap. split.
  - destruct (children this !! h) as [c|] eqn:Hc; [|done].
    intros [= <-]. exists (h, c). split; [done|].
    apply list_elem_of_filter. split; [done|].
    apply elem_of_lookup_imap. by exists h, c.
  - intros ([h' c] & -> & [Hk Hc]%list_elem_of_filter).
    apply elem_of_lookup_imap in Hc as (i & c' & [= -> ->] & Hc).
    simpl in *. by rewrite Hc, <- Hk.
Qed.

Ltac conj := repeat match goal with |- _ ∧ _ => split end.

Ltac membership := rewrite !elem_of_cons; tauto.

Ltac run_constructor :=
  cbv zeta; rewrite ?constructor_result;
  match goal with
  | |- context [applicationName ?p] => generalize (applicationName p); intros n
  end.

(** ** The dependency graph of the assembled stack *)

Lemma constructor_kinds (id : string) (props : option AppProps) :
  kind <$> children (constructor id props) = declaration_order.
Proof. reflexivity. Qed.

Lemma constructor_edges (id : string) (props : option AppProps) :
  edges (constructor id props) =
  [ (1, 0); (2, 1); (3, 2); (4, 2); (4, 3); (5, 4); (6, 0); (6, 4); (6, 2);
    (7, 1); (8, 7); (9, 8); (9, 6) ].
Proof. reflexivity. Qed.

Lemma constructor_backwards (id : string) (props : option AppProps) :
  Forall (λ e, e.2 < e.1) (edges (constructor id props)).
Proof. rewrite constructor_edges. repeat constructor. Qed.

Lemma constructor_depends_on (id : string) (props : option AppProps)
    (a b : handle) :
  (a, b) ∈ edges (constructor id props) →
  reaches (constructor id props) a b.
Proof. intros H. apply tc_once. by apply depends_on_edges. Qed.

(** What the load balancer can reach: the cluster's network and the
    cluster. *)
Lemma load_balancer_reach (id : string) (props : option AppProps)
    (a b : handle) :
  reaches (constructor id props) a b → a ∈ [7; 1; 0] → b ∈ [7; 1; 0].
Proof.
  apply reaches_closed. rewrite constructor_edges.
  repeat apply Forall_cons_2; try apply Forall_nil_2; simpl;
    rewrite !elem_of_cons, elem_of_nil; lia.
Qed.

Lemma load_balancer_not_on_service (id : string) (props : option AppProps) :
  ¬ kind_reaches (constructor id props) KLoadBalancer KService.
Proof.
  intros (a & b & Ha%kind_at_handles_of & Hb%kind_at_handles_of & Hab).
  change (a ∈ [7]) in Ha. change (b ∈ [6]) in Hb.
  apply list_elem_of_singleton in Ha as ->.
  apply list_elem_of_singleton in Hb as ->.
  apply load_balancer_reach in Hab; revert Hab;
    rewrite !elem_of_cons, elem_of_nil; lia.
Qed.


(** The stack assembled for "ci". *)
Lemma assemble_ci :
  assemble "ci" = constructor "ci-app-stack"
    (Some {| appName := "ci"; account := "";
             env := {| cdk.account := None; cdk.region := None |} |}).
Proof. vm_compute. reflexivity. Qed.


(** ** Tags *)




(** ** The file system *)

(** C4.  Whatever the id and the props, the stack declares one file system,
    its removal policy is DESTROY, and no file system is left when the stack
    is torn down. *)
Theorem file_system_is_destroyed (id : string) (props : option AppProps) :
  let s := constructor id props in
  efs.removalPolicy <$> fileSystems s = [DESTROY]
  ∧ residual_file_systems s = [].
Proof. run_constructor. split; reflexivity. Qed.

(** ** Identifiers and names *)



(** ** The task definition *)

(** C5.  Whatever the id and the props, the one task definition reserves
    1024 CPU units and 2048 MiB, has exactly one volume and exactly one
    container, which has exactly one port mapping, container port 8080; the
    access point the volume names has path /jenkins-home, POSIX user 1000
    and group 1000, and is created owned by 1000:1000 with permissions
    755. *)
Theorem task_definition_shape (id : string) (props : option AppProps) :
  let s := constructor id props in
  ∃ td tdp vol cd opts mps ap fs apo,
    handles_of KTaskDefinition s = [td]
    ∧ resource_at s td = Some (FargateTaskDefinition tdp [vol])
    ∧ ecs.cpu tdp = 1024%N
    ∧ ecs.memoryLimitMiB tdp = 2048%N
    ∧ handles_of KContainer s = [cd]
    ∧ resource_at s cd = Some (ContainerDefinition td opts mps)
    ∧ ecs.portMappings opts = [ {| ecs.containerPort := 8080 |} ]
    ∧ ecs.accessPointId (ecs.authorizationConfig
                           (ecs.efsVolumeConfiguration vol))
        = accessPointId ap
    ∧ handles_of KAccessPoint s = [ap]
    ∧ resource_at s ap = Some (AccessPoint fs apo)
    ∧ efs.path apo = "/jenkins-home"
    ∧ efs.uid (efs.posixUser apo) = "1000"
    ∧ efs.gid (efs.posixUser apo) = "1000"
    ∧ efs.ownerUid (efs.createAcl apo) = "1000"
    ∧ efs.ownerGid (efs.createAcl apo) = "1000"
    ∧ efs.permissions (efs.createAcl apo) = "755".
Proof.
  run_constructor. do 9 eexists. conj; reflexivity.
Qed.

(** C8.  Whatever the id and the props, the one volume of the task
    definition names the file system and the access point of that file
    system, with transit encryption ENABLED and IAM authorization ENABLED;
    the container image is jenkins/jenkins:lts; the container has one mount
    point, of that volume, at /var/jenkins_home, not read-only. *)
Theorem volume_image_and_mount (id : string) (props : option AppProps) :
  let s := constructor id props in
  ∃ td tdp vol fs fsp ap apo cd opts mp,
    handles_of KTaskDefinition s = [td]
    ∧ resource_at s td = Some (FargateTaskDefinition tdp [vol])
    ∧ ecs.fileSystemId (ecs.efsVolumeConfiguration vol) = fileSystemId fs
    ∧ resource_at s fs = Some (FileSystem fsp)
    ∧ ecs.accessPointId (ecs.authorizationConfig
                           (ecs.efsVolumeConfiguration vol))
        = accessPointId ap
    ∧ resource_at s ap = Some (AccessPoint fs apo)
    ∧ ecs.transitEncryption (ecs.efsVolumeConfiguration vol) = "ENABLED"
    ∧ ecs.iam (ecs.authorizationConfig (ecs.efsVolumeConfiguration vol))
        = "ENABLED"
    ∧ handles_of KContainer s = [cd]
    ∧ resource_at s cd = Some (ContainerDefinition td opts [mp])
    ∧ ecs.image opts = ecs.fromRegistry "jenkins/jenkins:lts"
    ∧ ecs.containerPath mp = "/var/jenkins_home"
    ∧ ecs.sourceVolume mp = ecs.name vol
    ∧ ecs.readOnly mp = false.
Proof.
  run_constructor. do 10 eexists. conj; reflexivity.
Qed.

(** ** The load balancer *)


(** ** A missing or empty application name *)



(** * Further properties of the constructor, [addAppTag] and the entry point *)

(** ** Strings *)

Lemma append_cons (a : Ascii.ascii) (s t : string) :
  String a s +:+ t = String a (s +:+ t).
Proof. reflexivity. Qed.

Lemma append_nil_r (s : string) : s +:+ "" = s.
Proof.
  induction s as [|a s IH]; [reflexivity|]. by rewrite append_cons, IH.
Qed.

Lemma length_append (s1 s2 : string) :
  String.length (s1 +:+ s2) = String.length s1 + String.length s2.
Proof.
  induction s1 as [|a s1 IH]; [reflexivity|].
  rewrite append_cons. simpl. by rewrite IH.
Qed.

Lemma append_cancel_r (s1 s2 s : string) : s1 +:+ s = s2 +:+ s → s1 = s2.
Proof.
  revert s2. induction s1 as [|a s1 IH]; intros [|b s2] H.
  - done.
  - apply (f_equal String.length) in H.
    rewrite !length_append in H. simpl in H. lia.
  - apply (f_equal String.length) in H.
    rewrite !length_append in H. simpl in H. lia.
  - rewrite !append_cons in H. injection H as -> H. f_equal. by apply IH.
Qed.

Lemma identifiers_constructor (id : string) (props : option AppProps) :
  identifiers (constructor id props)
  = String.append (applicationName props) <$> identifier_suffixes.
Proof.
  run_constructor. unfold identifiers. simpl. by rewrite append_nil_r.
Qed.

(** ** Identifiers *)




(** ** Tags *)


Lemma fmap_alter_same {A B} (f : A → B) (g : A → A) (i : nat) (l : list A) :
  (∀ x, f (g x) = f x) → f <$> alter g i l = f <$> l.
Proof.
  intros H. rewrite (list_fmap_alter f g (λ y, y)).
  - by apply list_alter_id.
  - apply Forall_forall. intros x _. apply H.
Qed.

Lemma edges_resources (this this' : AppStack) :
  resource <$> children this' = resource <$> children this →
  edges this' = edges this.
Proof.
  assert (H : ∀ s, edges s
    = mjoin (imap (λ a r, (λ b, (a, b)) <$> deps r) (resource <$> children s)))
    by (intros s; unfold edges; by rewrite imap_fmap).
  intros Heq. by rewrite !H, Heq.
Qed.



(** ** How the declarations fit together *)

(** X6.  Whatever the id and the props, the port the target group forwards
    to is a port the workload exposes: the target of the target group is
    the service, and the container of the service's task definition has a
    port mapping for that very port. *)
Theorem target_port_is_exposed (id : string) (props : option AppProps) :
  let s := constructor id props in
  ∃ tg l tp svc sp conns cd opts mps,
    handles_of KTargetGroup s = [tg]
    ∧ resource_at s tg = Some (ApplicationTargetGroup l tp)
    ∧ elbv2.targets tp = [svc]
    ∧ resource_at s svc = Some (FargateService sp conns)
    ∧ handles_of KContainer s = [cd]
    ∧ resource_at s cd
        = Some (ContainerDefinition (ecs.taskDefinition sp) opts mps)
    ∧ {| ecs.containerPort := elbv2.tg_port tp |} ∈ ecs.portMappings opts.
Proof.
  run_constructor. eexists 9, _, _, 6, _, _, 5, _, _.
  conj; try reflexivity. simpl. membership.
Qed.


(** X8.  Whatever the id and the props, everything sits in one network: the
    file system and the load balancer are both placed in the network of the
    cluster that the service runs in, and the stack has no other network. *)
Theorem one_shared_network (id : string) (props : option AppProps) :
  let s := constructor id props in
  ∃ c cp v fs fsp lb lbp svc sp conns,
    handles_of KVpc s = [v]
    ∧ resource_at s v = Some (Vpc c)
    ∧ resource_at s c = Some (Cluster cp)
    ∧ handles_of KFileSystem s = [fs]
    ∧ resource_at s fs = Some (FileSystem fsp)
    ∧ efs.vpc fsp = v
    ∧ handles_of KLoadBalancer s = [lb]
    ∧ resource_at s lb = Some (ApplicationLoadBalancer lbp)
    ∧ elbv2.vpc lbp = v
    ∧ handles_of KService s = [svc]
    ∧ resource_at s svc = Some (FargateService sp conns)
    ∧ ecs.cluster sp = c.
Proof.
  run_constructor. eexists 0, _, 1, 2, _, 7, _, 6, _, _. conj; reflexivity.
Qed.

(** ** What the props and the environment can change *)





